(** * Workout API handlers (internal/api/workout_handler.go) and the helpers
    they use (internal/utils/utils.go), as a shallow embedding.

    The handlers are written over the [WorkoutStore] interface of the Go code
    (a type class here), in a small state-and-trace monad: the store state is
    threaded explicitly, and every store call and every response write is
    recorded in order, so that "no second response" or "no mutating call"
    can be stated directly. *)

From Stdlib Require Import ZArith Ascii String List Lia.
From stdpp Require Import base gmap strings.
Import ListNotations.
Open Scope Z_scope.

(** ** Data model (store.Workout, store.WorkoutEntry, store.User) *)

Record WorkoutEntry := mkEntry {
  entry_id : Z;
  entry_workout_id : Z;
  exercise_name : string;
  sets : Z;
  reps : Z;
  weight : Z;
  notes : string
}.

Record Workout := mkWorkout {
  ID : Z;
  UserID : Z;
  Title : string;
  Description : string;
  DurationMinutes : Z;
  CaloriesBurned : Z;
  Entries : list WorkoutEntry
}.

Record User := mkUser { user_ID : Z }.

(** [middleware.GetUser(req)] yields a [*store.User]: [nil], the
    [store.AnonymousUser] sentinel, or a real user. *)
Inductive Identity :=
| NilUser
| AnonymousUser
| AuthUser (u : User).

(** Errors returned by the store: [sql.ErrNoRows] or any other failure. *)
Inductive DbError :=
| ErrNoRows
| ErrOther (msg : string).

Inductive Result (A : Type) :=
| Ok (a : A)
| Err (e : DbError).
Arguments Ok {A} a.
Arguments Err {A} e.

(** ** The [store.WorkoutStore] interface.
    Reads do not change the store; mutations return the new state. *)
Class WorkoutStore (S : Type) := {
  GetWorkoutByID : S -> Z -> Result (option Workout);
  GetWorkoutOwner : S -> Z -> Result Z;
  CreateWorkout : S -> Workout -> Result Workout * S;
  UpdateWorkout : S -> Workout -> Result unit * S;
  DeleteWorkout : S -> Z -> Result unit * S
}.

(** ** HTTP side: requests and responses *)

Record Request := mkRequest {
  url_id : string;      (** [chi.URLParam(req, "id")], "" when absent *)
  req_user : Identity   (** [middleware.GetUser(req)] *)
}.

(** [utils.Envelope] values written by the handlers. *)
Inductive Envelope :=
| EnvError (msg : string)
| EnvWorkout (w : option Workout).

Inductive Response :=
| WriteJson (status : Z) (data : Envelope)   (** [utils.WriteJson] *)
| NotFound                                   (** [http.NotFound] *)
| HttpError (msg : string) (status : Z)      (** [http.Error] *)
| WriteHeader (status : Z).                  (** [w.WriteHeader] *)

Definition status_of (r : Response) : Z :=
  match r with
  | WriteJson st _ => st
  | NotFound => 404
  | HttpError _ st => st
  | WriteHeader st => st
  end.

Definition StatusOK := 200.
Definition StatusCreated := 201.
Definition StatusNoContent := 204.
Definition StatusBadRequest := 400.
Definition StatusForbidden := 403.
Definition StatusNotFound := 404.
Definition StatusInternalServerError := 500.

(** Store calls, as they appear in the trace. *)
Inductive Call :=
| CGetWorkoutByID (id : Z)
| CGetWorkoutOwner (id : Z)
| CCreateWorkout (w : Workout)
| CUpdateWorkout (w : Workout)
| CDeleteWorkout (id : Z).

Definition is_mutation (c : Call) : bool :=
  match c with
  | CCreateWorkout _ | CUpdateWorkout _ | CDeleteWorkout _ => true
  | _ => false
  end.

Inductive Event :=
| ECall (c : Call)
| EWrite (r : Response).

Definition calls_of (t : list Event) : list Call :=
  flat_map (fun e => match e with ECall c => [c] | EWrite _ => [] end) t.

Definition writes_of (t : list Event) : list Response :=
  flat_map (fun e => match e with ECall _ => [] | EWrite r => [r] end) t.

(** ** The handler monad: state passing plus an event trace. *)
Section Monad.
Context {S : Type}.

Definition HM (A : Type) := S -> A * S * list Event.

Definition ret {A} (a : A) : HM A := fun s => (a, s, []).

Definition bind {A B} (m : HM A) (k : A -> HM B) : HM B :=
  fun s =>
    let '(a, s1, t1) := m s in
    let '(b, s2, t2) := k a s1 in
    (b, s2, t1 ++ t2).

Definition write (r : Response) : HM unit := fun s => (tt, s, [EWrite r]).

End Monad.

Notation "x <- m ;; k" := (bind m (fun x => k))
  (at level 98, m at next level, right associativity).
Notation "m ;;; k" := (bind m (fun _ => k))
  (at level 98, right associativity).

Section StoreCalls.
Context {S : Type} `{WorkoutStore S}.

Definition call_GetWorkoutByID (id : Z) : HM (Result (option Workout)) :=
  fun s => (GetWorkoutByID s id, s, [ECall (CGetWorkoutByID id)]).
Definition call_GetWorkoutOwner (id : Z) : HM (Result Z) :=
  fun s => (GetWorkoutOwner s id, s, [ECall (CGetWorkoutOwner id)]).
Definition call_CreateWorkout (w : Workout) : HM (Result Workout) :=
  fun s => let '(r, s') := CreateWorkout s w in (r, s', [ECall (CCreateWorkout w)]).
Definition call_UpdateWorkout (w : Workout) : HM (Result unit) :=
  fun s => let '(r, s') := UpdateWorkout s w in (r, s', [ECall (CUpdateWorkout w)]).
Definition call_DeleteWorkout (id : Z) : HM (Result unit) :=
  fun s => let '(r, s') := DeleteWorkout s id in (r, s', [ECall (CDeleteWorkout id)]).

End StoreCalls.

(** ** [strconv.ParseInt(s, 10, 64)] *)

Definition digit_value (c : ascii) : option Z :=
  let n := Z.of_nat (nat_of_ascii c) in
  if (48 <=? n) && (n <=? 57) then Some (n - 48) else None.

Fixpoint digits_acc (s : string) (acc : Z) : option Z :=
  match s with
  | EmptyString => Some acc
  | String c r =>
      match digit_value c with
      | Some d => digits_acc r (acc * 10 + d)
      | None => None
      end
  end.

(** [strconv.ParseUint(s, 10, 64)]: empty is a syntax error, every byte a
    decimal digit (no underscores in base 10), value below 2^64. *)
Definition ParseUint (s : string) : option Z :=
  match s with
  | EmptyString => None
  | _ =>
      match digits_acc s 0 with
      | Some n => if n <=? 2 ^ 64 - 1 then Some n else None
      | None => None
      end
  end.

(** [strconv.ParseInt(s, 10, 64)]: optional sign, then [ParseUint], then the
    [cutoff = 1 << 63] range check. *)
Definition ParseInt (s : string) : option Z :=
  match s with
  | EmptyString => None
  | _ =>
      let '(neg, rest) :=
        match s with
        | String "+"%char r => (false, r)
        | String "-"%char r => (true, r)
        | _ => (false, s)
        end in
      match ParseUint rest with
      | None => None
      | Some un =>
          let cutoff := 2 ^ 63 in
          if negb neg && (cutoff <=? un) then None
          else if neg && (cutoff <? un) then None
          else Some (if neg then - un else un)
      end
  end.

(** [utils.ReadIDParam]: on error it returns [0] together with the error. *)
Definition ReadIDParam (req : Request) : Z * option string :=
  let idParam := url_id req in
  if String.eqb idParam "" then (0, Some "Invalid id parameter")
  else match ParseInt idParam with
       | None => (0, Some "Invalid id parameter type")
       | Some id => (id, None)
       end.

(** ** The handlers of [WorkoutHandler] *)

(** The anonymous-user check the three mutating handlers share:
    [currentUser == nil || currentUser == store.AnonymousUser]. *)
Definition is_logged_out (i : Identity) : bool :=
  match i with
  | NilUser | AnonymousUser => true
  | AuthUser _ => false
  end.

(** The body of [HandleUpdateWorkoutByID], after [json.Decode]: pointer
    fields are [None] when the key is absent or [null]; [Entries] is a nil
    slice ([None]) when absent or [null], and a non-nil slice, possibly
    empty, when the key holds an array. *)
Record UpdateWorkoutRequest := mkUpdateRequest {
  upd_Title : option string;
  upd_Description : option string;
  upd_DurationMinutes : option Z;
  upd_CaloriesBurned : option Z;
  upd_Entries : option (list WorkoutEntry)
}.

(** Lines 125-140: each present field overwrites the existing one. *)
Definition apply_update (w : Workout) (u : UpdateWorkoutRequest) : Workout :=
  let w := match upd_Title u with
           | Some t => {| ID := ID w; UserID := UserID w; Title := t;
                          Description := Description w;
                          DurationMinutes := DurationMinutes w;
                          CaloriesBurned := CaloriesBurned w; Entries := Entries w |}
           | None => w end in
  let w := match upd_Description u with
           | Some d => {| ID := ID w; UserID := UserID w; Title := Title w;
                          Description := d;
                          DurationMinutes := DurationMinutes w;
                          CaloriesBurned := CaloriesBurned w; Entries := Entries w |}
           | None => w end in
  let w := match upd_DurationMinutes u with
           | Some m => {| ID := ID w; UserID := UserID w; Title := Title w;
                          Description := Description w;
                          DurationMinutes := m;
                          CaloriesBurned := CaloriesBurned w; Entries := Entries w |}
           | None => w end in
  let w := match upd_CaloriesBurned u with
           | Some c => {| ID := ID w; UserID := UserID w; Title := Title w;
                          Description := Description w;
                          DurationMinutes := DurationMinutes w;
                          CaloriesBurned := c; Entries := Entries w |}
           | None => w end in
  match upd_Entries u with
  | Some es => {| ID := ID w; UserID := UserID w; Title := Title w;
                  Description := Description w;
                  DurationMinutes := DurationMinutes w;
                  CaloriesBurned := CaloriesBurned w; Entries := es |}
  | None => w
  end.

Definition set_UserID (w : Workout) (uid : Z) : Workout :=
  {| ID := ID w; UserID := uid; Title := Title w; Description := Description w;
     DurationMinutes := DurationMinutes w; CaloriesBurned := CaloriesBurned w;
     Entries := Entries w |}.

Definition set_ID (w : Workout) (id : Z) : Workout :=
  {| ID := id; UserID := UserID w; Title := Title w; Description := Description w;
     DurationMinutes := DurationMinutes w; CaloriesBurned := CaloriesBurned w;
     Entries := Entries w |}.

Section Handlers.
Context {S : Type} `{WorkoutStore S}.

(** [HandleWorkoutByID] (lines 32-51). *)
Definition HandleWorkoutByID (req : Request) : HM unit :=
  let '(workoutID, err) := ReadIDParam req in
  match err with
  | Some _ => write (WriteJson StatusBadRequest (EnvError "Invalid workout id"))
  | None =>
      r <- call_GetWorkoutByID workoutID ;;
      match r with
      | Err _ => write (WriteJson StatusInternalServerError (EnvError "Internal Server Error"))
      | Ok workout => write (WriteJson StatusOK (EnvWorkout workout))
      end
  end.

(** [HandleCreateWorkout] (lines 55-83); [body] is the decoded
    [store.Workout], [None] when [json.Decode] fails. *)
Definition HandleCreateWorkout (req : Request) (body : option Workout) : HM unit :=
  match body with
  | None => write (WriteJson StatusBadRequest (EnvError "Invalid request sent"))
  | Some workout =>
      match req_user req with
      | NilUser | AnonymousUser =>
          write (WriteJson StatusBadRequest (EnvError "you must be logged in"))
      | AuthUser currentUser =>
          let workout := set_UserID workout (user_ID currentUser) in
          r <- call_CreateWorkout workout ;;
          match r with
          | Err _ => write (WriteJson StatusInternalServerError (EnvError "failed to create workout"))
          | Ok createWorkout => write (WriteJson StatusCreated (EnvWorkout (Some createWorkout)))
          end
      end
  end.

(** [HandleUpdateWorkoutByID] (lines 86-178). The [ReadIDParam] error
    branch writes a response and does not return: execution goes on with
    [workoutID = 0]. *)
Definition HandleUpdateWorkoutByID (req : Request)
    (body : option UpdateWorkoutRequest) : HM unit :=
  let '(workoutID, err) := ReadIDParam req in
  (match err with
   | Some _ => write (WriteJson StatusBadRequest (EnvError "Invalid workout update id"))
   | None => ret tt
   end) ;;;
  r <- call_GetWorkoutByID workoutID ;;
  match r with
  | Err _ => write (WriteJson StatusInternalServerError (EnvError "Internal server error"))
  | Ok None => write NotFound
  | Ok (Some existingWorkout) =>
      match body with
      | None => write (WriteJson StatusBadRequest (EnvError "Invalid request payload"))
      | Some updateWorkoutRequest =>
          let existingWorkout := apply_update existingWorkout updateWorkoutRequest in
          match req_user req with
          | NilUser | AnonymousUser =>
              write (WriteJson StatusBadRequest (EnvError "you must be logged in to update"))
          | AuthUser currentUser =>
              o <- call_GetWorkoutOwner workoutID ;;
              match o with
              | Err ErrNoRows =>
                  write (WriteJson StatusBadRequest (EnvError "workout does not exists"))
              | Err _ =>
                  write (WriteJson StatusInternalServerError (EnvError "internal server error"))
              | Ok workoutOwner =>
                  if negb (workoutOwner =? user_ID currentUser) then
                    write (WriteJson StatusForbidden
                             (EnvError "you are not authorized to update this workout"))
                  else
                    let existingWorkout := set_ID existingWorkout workoutID in
                    u <- call_UpdateWorkout existingWorkout ;;
                    match u with
                    | Err _ => write (WriteJson StatusInternalServerError (EnvError "Internal server error"))
                    | Ok _ => write (WriteJson StatusOK (EnvWorkout (Some existingWorkout)))
                    end
              end
          end
      end
  end.

(** [HandleDeleteWorkoutByID] (lines 180-232). *)
Definition HandleDeleteWorkoutByID (req : Request) : HM unit :=
  let paramsWorkoutID := url_id req in
  if String.eqb paramsWorkoutID "" then write NotFound
  else
  match ParseInt paramsWorkoutID with
  | None => write NotFound
  | Some workoutID =>
      match req_user req with
      | NilUser | AnonymousUser =>
          write (WriteJson StatusBadRequest (EnvError "you must be logged in to update"))
      | AuthUser currentUser =>
          o <- call_GetWorkoutOwner workoutID ;;
          match o with
          | Err ErrNoRows =>
              write (WriteJson StatusBadRequest (EnvError "workout does not exists"))
          | Err _ =>
              write (WriteJson StatusInternalServerError (EnvError "internal server error"))
          | Ok workoutOwner =>
              if negb (workoutOwner =? user_ID currentUser) then
                write (WriteJson StatusForbidden
                         (EnvError "you are not authorized to delete this workout"))
              else
                d <- call_DeleteWorkout workoutID ;;
                match d with
                | Err ErrNoRows => write (HttpError "Workout not found" StatusNotFound)
                | Err _ => write (HttpError "error deleting the workout" StatusInternalServerError)
                | Ok _ => write (WriteHeader StatusNoContent)
                end
          end
      end
  end.

End Handlers.

(** ** The relational store *)

(** Modelled from the spec: the relational [WorkoutStore] implementation
    (internal/store/workout_store.go is not among the sources), after
    section 4.4 of the spec: [GetByID] returns nil, not an error, when the
    row is absent; [GetOwner] fails with [sql.ErrNoRows] when absent;
    [Update] replaces the scalar fields and the whole entry collection and
    never reassigns the owner; [Delete] removes the row with its entries;
    [Create] stores the parent with its entries under a fresh id. When the
    connection is down every call fails with a storage error. *)
Record MemStore := mkMemStore {
  rows : gmap Z Workout;
  next_id : Z;
  down : bool
}.

Definition conn_error : DbError := ErrOther "connection refused".

Definition attach_entries (wid : Z) (es : list WorkoutEntry) : list WorkoutEntry :=
  map (fun e => {| entry_id := entry_id e; entry_workout_id := wid;
                   exercise_name := exercise_name e; sets := sets e; reps := reps e;
                   weight := weight e; notes := notes e |}) es.

Definition mem_create (st : MemStore) (w : Workout) : Result Workout * MemStore :=
  if down st then (Err conn_error, st) else
  let id := next_id st in
  let w' := {| ID := id; UserID := UserID w; Title := Title w;
               Description := Description w; DurationMinutes := DurationMinutes w;
               CaloriesBurned := CaloriesBurned w;
               Entries := attach_entries id (Entries w) |} in
  (Ok w', {| rows := <[id := w']> (rows st); next_id := id + 1; down := false |}).

Definition mem_update (st : MemStore) (w : Workout) : Result unit * MemStore :=
  if down st then (Err conn_error, st) else
  match rows st !! ID w with
  | None => (Err ErrNoRows, st)
  | Some old =>
      let w' := {| ID := ID w; UserID := UserID old; Title := Title w;
                   Description := Description w; DurationMinutes := DurationMinutes w;
                   CaloriesBurned := CaloriesBurned w;
                   Entries := attach_entries (ID w) (Entries w) |} in
      (Ok tt, {| rows := <[ID w := w']> (rows st); next_id := next_id st; down := false |})
  end.

Definition mem_delete (st : MemStore) (id : Z) : Result unit * MemStore :=
  if down st then (Err conn_error, st) else
  match rows st !! id with
  | None => (Err ErrNoRows, st)
  | Some _ => (Ok tt, {| rows := delete id (rows st); next_id := next_id st; down := false |})
  end.

#[global] Instance MemStore_WorkoutStore : WorkoutStore MemStore := {
  GetWorkoutByID st id := if down st then Err conn_error else Ok (rows st !! id);
  GetWorkoutOwner st id :=
    if down st then Err conn_error else
    match rows st !! id with
    | None => Err ErrNoRows
    | Some w => Ok (UserID w)
    end;
  CreateWorkout := mem_create;
  UpdateWorkout := mem_update;
  DeleteWorkout := mem_delete
}.

(** ** Token service *)

Module Tokens.

Record TokenRecord := mkToken {
  Hash : string;
  tok_UserID : Z;
  Expiry : Z;
  Scope : string
}.

Inductive TokenError :=
| TokNotFound
| TokExpired
| TokScopeMismatch
| TokOrphaned.

Inductive TokenResult :=
| TokValid (u : User)
| TokFail (e : TokenError).

Section TokenService.
(** The deterministic one-way hash the service applies to token secrets. *)
Variable hash : string -> string.

(** Modelled from the spec: [TokenService.IssueToken] (the token store and
    token generation code are not among the sources). The random secret is
    an input; the table, keyed by hash, keeps [{hash, userID, now+ttl,
    scope}]; the plaintext is returned and not stored. *)
Definition IssueToken (tokens : gmap string TokenRecord) (secret : string)
    (userID ttl now : Z) (scope : string)
    : string * TokenRecord * gmap string TokenRecord :=
  let rec := {| Hash := hash secret; tok_UserID := userID;
                Expiry := now + ttl; Scope := scope |} in
  (secret, rec, <[hash secret := rec]> tokens).

(** Modelled from the spec: [TokenService.ValidateToken]: hash the
    presented value, look it up, then [NotFound], [Expired] when
    [now > expiry], [ScopeMismatch], [OrphanedToken] when the user is gone. *)
Definition ValidateToken (tokens : gmap string TokenRecord) (users : gmap Z User)
    (now : Z) (presented requiredScope : string) : TokenResult :=
  match tokens !! hash presented with
  | None => TokFail TokNotFound
  | Some r =>
      if now >? Expiry r then TokFail TokExpired
      else if negb (String.eqb (Scope r) requiredScope) then TokFail TokScopeMismatch
      else match users !! tok_UserID r with
           | None => TokFail TokOrphaned
           | Some u => TokValid u
           end
  end.

End TokenService.

End Tokens.

Definition run_trace {S A} (m : @HM S A) (s : S) : list Event :=
  let '(_, _, t) := m s in t.

Definition run_state {S A} (m : @HM S A) (s : S) : S :=
  let '(_, s', _) := m s in s'.

(** ** Sample data *)

Definition w_sample (owner : Z) : Workout :=
  {| ID := 7; UserID := owner; Title := "Leg day"; Description := "squats";
     DurationMinutes := 45; CaloriesBurned := 300;
     Entries := [{| entry_id := 1; entry_workout_id := 7; exercise_name := "squat";
                    sets := 3; reps := 10; weight := 100; notes := "" |}] |}.

Definition store_with (owner : Z) : MemStore :=
  {| rows := <[7 := w_sample owner]> ∅; next_id := 8; down := false |}.

Definition empty_store : MemStore := {| rows := ∅; next_id := 1; down := false |}.

Example parse_ok : ParseInt "-42" = Some (-42). Proof. reflexivity. Qed.
Example parse_max : ParseInt "9223372036854775807" = Some (2 ^ 63 - 1). Proof. reflexivity. Qed.
Example parse_overflow : ParseInt "9223372036854775808" = None. Proof. reflexivity. Qed.
Example parse_min : ParseInt "-9223372036854775808" = Some (- 2 ^ 63). Proof. reflexivity. Qed.
Example parse_bad : ParseInt "7a" = None. Proof. reflexivity. Qed.
Example parse_sign_only : ParseInt "+" = None. Proof. reflexivity. Qed.

(** ** Decimal notation of an integer, to state what [ParseInt] accepts. *)

Definition digit_char (d : Z) : ascii := ascii_of_nat (Z.to_nat d + 48).

(** The base-10 digits of [n >= 0] in front of [acc]; [fuel] bounds the
    number of digits. *)
Fixpoint digits_of (fuel : nat) (n : Z) (acc : string) : string :=
  match fuel with
  | O => acc
  | S f =>
      let acc' := String (digit_char (n mod 10)) acc in
      if n <? 10 then acc' else digits_of f (n / 10) acc'
  end.

Definition decimal_of_nonneg (n : Z) : string := digits_of 20 n "".

Definition decimal_of (n : Z) : string :=
  if n <? 0 then String "-" (decimal_of_nonneg (- n)) else decimal_of_nonneg n.

(** ** Routing (internal/routes/routes.go) *)

Module Routes.





End Routes.

(** ** The earlier handlers kept in internal/store/database.go (lines 21-200)

    The same [WorkoutHandler] methods before identity and ownership checks
    were added; [HandleWorkoutByID] there is identical to the current one. *)
Module Legacy.
Section LegacyHandlers.
Context {S : Type} `{WorkoutStore S}.

(** [HandleCreateWorkout] (database.go lines 73-91). *)
Definition HandleCreateWorkout (req : Request) (body : option Workout) : HM unit :=
  match body with
  | None => write (WriteJson StatusBadRequest (EnvError "Invalid request sent"))
  | Some workout =>
      r <- call_CreateWorkout workout ;;
      match r with
      | Err _ => write (WriteJson StatusInternalServerError (EnvError "failed to create workout"))
      | Ok createWorkout => write (WriteJson StatusCreated (EnvWorkout (Some createWorkout)))
      end
  end.

(** [HandleUpdateWorkoutByID] (database.go lines 94-163); the [ReadIDParam]
    error branch does not return here either. *)
Definition HandleUpdateWorkoutByID (req : Request)
    (body : option UpdateWorkoutRequest) : HM unit :=
  let '(workoutID, err) := ReadIDParam req in
  (match err with
   | Some _ => write (WriteJson StatusBadRequest (EnvError "Invalid workout update id"))
   | None => ret tt
   end) ;;;
  r <- call_GetWorkoutByID workoutID ;;
  match r with
  | Err _ => write (WriteJson StatusInternalServerError (EnvError "Internal server error"))
  | Ok None => write NotFound
  | Ok (Some existingWorkout) =>
      match body with
      | None => write (WriteJson StatusBadRequest (EnvError "Invalid request payload"))
      | Some updateWorkoutRequest =>
          let existingWorkout := apply_update existingWorkout updateWorkoutRequest in
          let existingWorkout := set_ID existingWorkout workoutID in
          u <- call_UpdateWorkout existingWorkout ;;
          match u with
          | Err _ => write (WriteJson StatusInternalServerError (EnvError "Internal server error"))
          | Ok _ => write (WriteJson StatusOK (EnvWorkout (Some existingWorkout)))
          end
      end
  end.

(** [HandleDeleteWorkoutByID] (database.go lines 165-192). *)
Definition HandleDeleteWorkoutByID (req : Request) : HM unit :=
  let paramsWorkoutID := url_id req in
  if String.eqb paramsWorkoutID "" then write NotFound
  else
  match ParseInt paramsWorkoutID with
  | None => write NotFound
  | Some workoutID =>
      d <- call_DeleteWorkout workoutID ;;
      match d with
      | Err ErrNoRows => write (HttpError "Workout not found" StatusNotFound)
      | Err _ => write (HttpError "error deleting the workout" StatusInternalServerError)
      | Ok _ => write (WriteHeader StatusNoContent)
      end
  end.

End LegacyHandlers.
End Legacy.

(** ** Lemmas on the embedding *)

Lemma ReadIDParam_ok (req : Request) (wid : Z) :
  ReadIDParam req = (wid, None) ->
  String.eqb (url_id req) "" = false /\ ParseInt (url_id req) = Some wid.
Proof.
  unfold ReadIDParam.
  destruct (String.eqb (url_id req) "") eqn:E; [discriminate|].
  destruct (ParseInt (url_id req)) eqn:P; [|discriminate].
  intros Hr; inversion Hr; subst; auto.
Qed.

Lemma ReadIDParam_err (req : Request) :
  url_id req = "" \/ ParseInt (url_id req) = None ->
  exists msg, ReadIDParam req = (0, Some msg).
Proof.
  unfold ReadIDParam; intros [E|E].
  - rewrite E; simpl; eauto.
  - destruct (String.eqb (url_id req) ""); [eauto|]. rewrite E; eauto.
Qed.

Lemma ReadIDParam_err_fst (req : Request) :
  (snd (ReadIDParam req) <> None) -> fst (ReadIDParam req) = 0.
Proof.
  unfold ReadIDParam.
  destruct (String.eqb (url_id req) ""); [reflexivity|].
  destruct (ParseInt (url_id req)); simpl; [congruence|reflexivity].
Qed.

Lemma eqb_empty_false_iff (s : string) : String.eqb s "" = false <-> s <> "".
Proof.
  split; intros H.
  - intros ->. discriminate.
  - destruct (String.eqb s "") eqn:E; [|reflexivity].
    apply String.eqb_eq in E. contradiction.
Qed.

Ltac unfold_handler :=
  unfold HandleWorkoutByID, HandleCreateWorkout, HandleUpdateWorkoutByID,
    HandleDeleteWorkoutByID, run_trace, run_state, bind, ret, write,
    call_GetWorkoutByID, call_GetWorkoutOwner, call_CreateWorkout,
    call_UpdateWorkout, call_DeleteWorkout.

(** Rewrite with the hypotheses describing the store and the request as
    far as they apply, reducing the handler as it goes. *)
Ltac step_handler :=
  repeat (simpl; match goal with
                 | H : ?x = _ |- context[?x] => rewrite H
                 end); simpl.

(** ** Claims *)

(** C1: an authenticated user U1 updating or deleting a workout whose
    recorded owner is another user U2 gets a 403 response, and neither
    [UpdateWorkout] nor [DeleteWorkout] is called, so the store is left as
    it was. For update, whatever the body, no mutating call is made and the
    store is unchanged; with a body that decodes, the only response is the
    403. For delete the trace is exactly the ownership probe and the 403. *)
Theorem C1_foreign_owner_forbidden {S : Type} `{WorkoutStore S} (s : S)
    (req : Request) (wid : Z) (w : Workout) (u1 : User) (u2 : Z)
    (body : option UpdateWorkoutRequest) :
  ReadIDParam req = (wid, None) ->
  req_user req = AuthUser u1 ->
  GetWorkoutByID s wid = Ok (Some w) ->
  GetWorkoutOwner s wid = Ok u2 ->
  u2 <> user_ID u1 ->
  run_state (HandleUpdateWorkoutByID req body) s = s /\
  Forall (fun c => is_mutation c = false)
    (calls_of (run_trace (HandleUpdateWorkoutByID req body) s)) /\
  (body <> None ->
   map status_of (writes_of (run_trace (HandleUpdateWorkoutByID req body) s)) = [403]) /\
  HandleDeleteWorkoutByID req s =
    (tt, s, [ECall (CGetWorkoutOwner wid);
             EWrite (WriteJson StatusForbidden
                       (EnvError "you are not authorized to delete this workout"))]).
Proof.
  intros Hread Huser Hget Howner Hne.
  pose proof (ReadIDParam_ok req wid Hread) as [Hnz Hparse].
  assert (Hb : (u2 =? user_ID u1) = false) by (apply Z.eqb_neq; exact Hne).
  split; [|split; [|split]].
  - destruct body as [upd|]; unfold_handler; rewrite Hread; step_handler; reflexivity.
  - destruct body as [upd|]; unfold_handler; rewrite Hread; step_handler;
      repeat constructor.
  - intros Hbody. destruct body as [upd|]; [|congruence].
    unfold_handler; rewrite Hread; step_handler; reflexivity.
  - unfold_handler; rewrite Hnz, Hparse, Huser; step_handler; reflexivity.
Qed.

Lemma C1_foreign_owner_forbidden_witness :
  ReadIDParam {| url_id := "7"; req_user := AuthUser (mkUser 1) |} = (7, None) /\
  run_state (HandleUpdateWorkoutByID {| url_id := "7"; req_user := AuthUser (mkUser 1) |}
               (Some (mkUpdateRequest (Some "X") None None None None))) (store_with 2)
    = store_with 2.
Proof.
  split; [reflexivity|].
  refine (proj1 (C1_foreign_owner_forbidden (store_with 2)
            {| url_id := "7"; req_user := AuthUser (mkUser 1) |} 7 (w_sample 2)
            (mkUser 1) 2 (Some (mkUpdateRequest (Some "X") None None None None))
            _ _ _ _ _)).
  - reflexivity.
  - reflexivity.
  - reflexivity.
  - reflexivity.
  - simpl; lia.
Defined.

Definition req_abc : Request := {| url_id := "abc"; req_user := AuthUser (mkUser 1) |}.

(** C7 (as stated, refuted): a delete request whose id does not parse is
    answered 404 by [http.NotFound], not 400. *)
Lemma C7_delete_bad_id_is_404 :
  map status_of (writes_of (run_trace (HandleDeleteWorkoutByID req_abc) empty_store)) = [404] /\
  map status_of (writes_of (run_trace (HandleDeleteWorkoutByID req_abc) empty_store)) <> [400].
Proof. split; vm_compute; [reflexivity|congruence]. Qed.

(** C7 (amended): when the [{id}] parameter is missing or is not a base-10
    64-bit integer, the get handler answers only 400 ("Invalid workout id")
    and the delete handler answers only 404 ([http.NotFound]); neither
    makes any store call and the store is unchanged. *)
Theorem C7_bad_id_get_400_delete_404 {S : Type} `{WorkoutStore S} (s : S) (req : Request) :
  url_id req = "" \/ ParseInt (url_id req) = None ->
  HandleWorkoutByID req s =
    (tt, s, [EWrite (WriteJson StatusBadRequest (EnvError "Invalid workout id"))]) /\
  HandleDeleteWorkoutByID req s = (tt, s, [EWrite NotFound]).
Proof.
  intros Hbad.
  destruct (ReadIDParam_err req Hbad) as [msg Hr].
  split.
  - unfold_handler; rewrite Hr; reflexivity.
  - unfold_handler. destruct Hbad as [E|E].
    + rewrite E; reflexivity.
    + destruct (String.eqb (url_id req) ""); [reflexivity|]. rewrite E; reflexivity.
Qed.

Lemma C7_bad_id_get_400_delete_404_witness :
  ParseInt (url_id req_abc) = None /\
  HandleDeleteWorkoutByID req_abc empty_store = (tt, empty_store, [EWrite NotFound]).
Proof.
  split; [reflexivity|].
  exact (proj2 (C7_bad_id_get_400_delete_404 empty_store req_abc (or_intror eq_refl))).
Defined.

(** C9: for a well-formed [{id}] and a store read without error, the get
    handler answers 200 with the store's result as the workout, also when
    that result is nil (then 200 with a null workout, not 404). *)
Theorem C9_get_ok_returns_store_result {S : Type} `{WorkoutStore S} (s : S)
    (req : Request) (wid : Z) (r : option Workout) :
  ReadIDParam req = (wid, None) ->
  GetWorkoutByID s wid = Ok r ->
  HandleWorkoutByID req s =
    (tt, s, [ECall (CGetWorkoutByID wid); EWrite (WriteJson StatusOK (EnvWorkout r))]).
Proof.
  intros Hread Hget.
  unfold_handler; rewrite Hread; step_handler; reflexivity.
Qed.

Lemma C9_get_ok_returns_store_result_witness :
  HandleWorkoutByID {| url_id := "7"; req_user := NilUser |} empty_store =
    (tt, empty_store, [ECall (CGetWorkoutByID 7); EWrite (WriteJson 200 (EnvWorkout None))]).
Proof.
  exact (C9_get_ok_returns_store_result empty_store {| url_id := "7"; req_user := NilUser |}
           7 None eq_refl eq_refl).
Defined.

(** C10 (code bug): with a malformed [{id}], [HandleUpdateWorkoutByID]
    writes the 400 and then goes on: it reads workout 0 from the store and
    writes a second response (here 404). *)
Theorem C10_update_bad_id_two_responses :
  run_trace (HandleUpdateWorkoutByID req_abc
               (Some (mkUpdateRequest (Some "X") None None None None))) empty_store =
    [EWrite (WriteJson StatusBadRequest (EnvError "Invalid workout update id"));
     ECall (CGetWorkoutByID 0);
     EWrite NotFound].
Proof. vm_compute. reflexivity. Qed.

(** C6 (code bug): deleting an id with no row, the ownership probe fails
    with [sql.ErrNoRows] and the handler answers 400 "workout does not
    exists", not 404. *)
Theorem C6_delete_missing_workout_is_400 :
  HandleDeleteWorkoutByID {| url_id := "7"; req_user := AuthUser (mkUser 1) |} empty_store =
    (tt, empty_store,
     [ECall (CGetWorkoutOwner 7);
      EWrite (WriteJson StatusBadRequest (EnvError "workout does not exists"))]).
Proof. vm_compute. reflexivity. Qed.

(** ** Lemmas on the update path *)

(** Close a goal [In c (calls ...) -> _] where [c] is not in the list. *)
Ltac not_in_calls :=
  let Hin := fresh "Hin" in
  intros Hin; simpl in Hin;
  repeat (destruct Hin as [Hin|Hin]; [discriminate Hin|]); contradiction.

(** The workout handed to [UpdateWorkout] is the stored one with the
    present fields of the body applied and the id of the URL set. *)
Lemma update_call_argument {S : Type} `{WorkoutStore S} (s : S) (req : Request)
    (w w' : Workout) (upd : UpdateWorkoutRequest) :
  GetWorkoutByID s (fst (ReadIDParam req)) = Ok (Some w) ->
  In (CUpdateWorkout w') (calls_of (run_trace (HandleUpdateWorkoutByID req (Some upd)) s)) ->
  w' = set_ID (apply_update w upd) (fst (ReadIDParam req)).
Proof.
  intros Hget.
  unfold_handler. destruct (ReadIDParam req) as [wid e]. simpl in Hget.
  destruct e; simpl; rewrite Hget; simpl;
    destruct (req_user req) as [| |u]; simpl; try not_in_calls;
    destruct (GetWorkoutOwner s wid) as [o|[|m]]; simpl; try not_in_calls;
    destruct (negb (o =? user_ID u)); simpl; try not_in_calls;
    destruct (UpdateWorkout s (set_ID (apply_update w upd) wid)) as [[x|ex] s'];
    simpl; intros Hin; repeat (destruct Hin as [Hin|Hin]; [congruence|]); contradiction.
Qed.

Lemma apply_update_fields (w : Workout) (upd : UpdateWorkoutRequest) :
  Title (apply_update w upd) = default (Title w) (upd_Title upd) /\
  Description (apply_update w upd) = default (Description w) (upd_Description upd) /\
  DurationMinutes (apply_update w upd) = default (DurationMinutes w) (upd_DurationMinutes upd) /\
  CaloriesBurned (apply_update w upd) = default (CaloriesBurned w) (upd_CaloriesBurned upd) /\
  Entries (apply_update w upd) = default (Entries w) (upd_Entries upd) /\
  UserID (apply_update w upd) = UserID w.
Proof.
  destruct upd as [t d m c es]; unfold apply_update; simpl.
  destruct t, d, m, c, es; simpl; repeat split.
Qed.

(** C3: on an update of an existing workout, the workout written is the
    stored one where each field present in the body replaces the stored
    value and each absent field keeps it; in particular a body with only a
    title keeps description, duration, calories and entries, and a body
    with [entries: []] writes an empty entry list. *)
Theorem C3_update_present_fields_only {S : Type} `{WorkoutStore S} (s : S) (req : Request)
    (w w' : Workout) (upd : UpdateWorkoutRequest) :
  GetWorkoutByID s (fst (ReadIDParam req)) = Ok (Some w) ->
  In (CUpdateWorkout w') (calls_of (run_trace (HandleUpdateWorkoutByID req (Some upd)) s)) ->
  Title w' = default (Title w) (upd_Title upd) /\
  Description w' = default (Description w) (upd_Description upd) /\
  DurationMinutes w' = default (DurationMinutes w) (upd_DurationMinutes upd) /\
  CaloriesBurned w' = default (CaloriesBurned w) (upd_CaloriesBurned upd) /\
  Entries w' = default (Entries w) (upd_Entries upd) /\
  (upd = mkUpdateRequest (upd_Title upd) None None None None ->
     Description w' = Description w /\ DurationMinutes w' = DurationMinutes w /\
     CaloriesBurned w' = CaloriesBurned w /\ Entries w' = Entries w) /\
  (upd_Entries upd = Some [] -> Entries w' = []).
Proof.
  intros Hget Hin.
  pose proof (update_call_argument s req w w' upd Hget Hin) as ->.
  pose proof (apply_update_fields w upd) as (Ht & Hd & Hm & Hc & He & _).
  unfold set_ID; simpl.
  rewrite Ht, Hd, Hm, Hc, He.
  do 5 (split; [reflexivity|]).
  destruct upd as [t d m c es]; simpl. split.
  - intros Hu. injection Hu as -> -> -> ->. simpl. repeat split.
  - intros ->. reflexivity.
Qed.

Definition upd_title_empty_entries : UpdateWorkoutRequest :=
  mkUpdateRequest (Some "X") None None None (Some []).

Definition req_7_user1 : Request := {| url_id := "7"; req_user := AuthUser (mkUser 1) |}.

Lemma C3_update_present_fields_only_witness :
  Entries (set_ID (apply_update (w_sample 1) upd_title_empty_entries) 7) = [] /\
  Description (set_ID (apply_update (w_sample 1) upd_title_empty_entries) 7) = "squats".
Proof.
  destruct (C3_update_present_fields_only (store_with 1) req_7_user1 (w_sample 1)
              (set_ID (apply_update (w_sample 1) upd_title_empty_entries) 7)
              upd_title_empty_entries)
    as (_ & Hd & _ & _ & _ & _ & He).
  - reflexivity.
  - vm_compute. right; right; left; reflexivity.
  - split; [apply He; reflexivity|]. rewrite Hd. reflexivity.
Defined.

(** C4: on create by an authenticated caller, the only store call is
    [CreateWorkout] with the decoded workout whose owner is replaced by the
    caller's id, whatever user id the body carried; and an update never
    changes the owner of the workout it writes. *)
Theorem C4_create_owner_is_caller {S : Type} `{WorkoutStore S} (s : S) (req : Request)
    (u : User) (w : Workout) :
  req_user req = AuthUser u ->
  calls_of (run_trace (HandleCreateWorkout req (Some w)) s) =
    [CCreateWorkout (set_UserID w (user_ID u))] /\
  UserID (set_UserID w (user_ID u)) = user_ID u /\
  (forall (ex w' : Workout) (upd : UpdateWorkoutRequest),
     GetWorkoutByID s (fst (ReadIDParam req)) = Ok (Some ex) ->
     In (CUpdateWorkout w') (calls_of (run_trace (HandleUpdateWorkoutByID req (Some upd)) s)) ->
     UserID w' = UserID ex).
Proof.
  intros Huser. split; [|split].
  - unfold_handler. rewrite Huser. simpl.
    destruct (CreateWorkout s (set_UserID w (user_ID u))) as [[c|e] s']; reflexivity.
  - reflexivity.
  - intros ex w' upd Hget Hin.
    rewrite (update_call_argument s req ex w' upd Hget Hin).
    unfold set_ID; simpl. apply (apply_update_fields ex upd).
Qed.

Lemma C4_create_owner_is_caller_witness :
  calls_of (run_trace (HandleCreateWorkout req_7_user1 (Some (w_sample 99))) empty_store) =
    [CCreateWorkout (set_UserID (w_sample 99) 1)].
Proof.
  exact (proj1 (C4_create_owner_is_caller empty_store req_7_user1 (mkUser 1) (w_sample 99)
                  eq_refl)).
Defined.

(** ** Logged-out callers *)

Definition allowed_error_status (r : Response) : Prop :=
  In (status_of r) [400; 404; 500].

Ltac all_allowed :=
  simpl;
  repeat (apply List.Forall_cons; [unfold allowed_error_status; simpl; tauto|]);
  apply List.Forall_nil.

Lemma logged_out_create {S : Type} `{WorkoutStore S} (s : S) (req : Request)
    (body : option Workout) :
  is_logged_out (req_user req) = true ->
  HandleCreateWorkout req body s =
    (tt, s, [EWrite (WriteJson StatusBadRequest
                       (EnvError (if body then "you must be logged in"
                                  else "Invalid request sent")))]).
Proof.
  intros Hl. unfold_handler.
  destruct body; [|reflexivity].
  destruct (req_user req); [reflexivity|reflexivity|discriminate].
Qed.

Lemma logged_out_delete {S : Type} `{WorkoutStore S} (s : S) (req : Request) :
  is_logged_out (req_user req) = true ->
  HandleDeleteWorkoutByID req s =
    (tt, s, [EWrite (if String.eqb (url_id req) "" then NotFound
                     else match ParseInt (url_id req) with
                          | None => NotFound
                          | Some _ => WriteJson StatusBadRequest
                                        (EnvError "you must be logged in to update")
                          end)]).
Proof.
  intros Hl. unfold_handler.
  destruct (String.eqb (url_id req) ""); [reflexivity|].
  destruct (ParseInt (url_id req)); [|reflexivity].
  destruct (req_user req); [reflexivity|reflexivity|discriminate].
Qed.

Lemma logged_out_update {S : Type} `{WorkoutStore S} (s : S) (req : Request)
    (body : option UpdateWorkoutRequest) :
  is_logged_out (req_user req) = true ->
  run_state (HandleUpdateWorkoutByID req body) s = s /\
  calls_of (run_trace (HandleUpdateWorkoutByID req body) s) =
    [CGetWorkoutByID (fst (ReadIDParam req))] /\
  Forall allowed_error_status (writes_of (run_trace (HandleUpdateWorkoutByID req body) s)).
Proof.
  intros Hl. unfold_handler.
  destruct (ReadIDParam req) as [wid e]; simpl.
  destruct (req_user req) eqn:U; [| |discriminate];
  destruct e; simpl;
  destruct (GetWorkoutByID s wid) as [[w|]|err]; simpl;
  try destruct body; simpl;
  (split; [reflexivity|split; [reflexivity|]]);
  all_allowed.
Qed.

Lemma logged_out_update_reaching_check {S : Type} `{WorkoutStore S} (s : S) (req : Request)
    (wid : Z) (w : Workout) (upd : UpdateWorkoutRequest) :
  is_logged_out (req_user req) = true ->
  ReadIDParam req = (wid, None) ->
  GetWorkoutByID s wid = Ok (Some w) ->
  HandleUpdateWorkoutByID req (Some upd) s =
    (tt, s, [ECall (CGetWorkoutByID wid);
             EWrite (WriteJson StatusBadRequest (EnvError "you must be logged in to update"))]).
Proof.
  intros Hl Hread Hget. unfold_handler. rewrite Hread. step_handler.
  destruct (req_user req); [reflexivity|reflexivity|discriminate].
Qed.

(** C2 (as stated, refuted): an anonymous create with a valid body is
    answered 400, not 401. *)
Lemma C2_anonymous_create_is_400 :
  map status_of (writes_of (run_trace
     (HandleCreateWorkout {| url_id := ""; req_user := AnonymousUser |} (Some (w_sample 0)))
     empty_store)) = [400] /\
  map status_of (writes_of (run_trace
     (HandleCreateWorkout {| url_id := ""; req_user := AnonymousUser |} (Some (w_sample 0)))
     empty_store)) <> [401].
Proof. split; vm_compute; [reflexivity|congruence]. Qed.

(** C2 (amended): when the identity is nil or the Anonymous sentinel,
    create, update and delete make no mutating store call and leave the
    store unchanged, and every response they write is an error status
    (400, 404 or 500). When the request passes the checks that come before
    the identity check (create: the body decodes; delete: the id parses;
    update: the id parses, the workout exists and the body decodes), the
    single response is 400 "you must be logged in...". *)
Theorem C2_logged_out_rejected_400 {S : Type} `{WorkoutStore S} (s : S) (req : Request) :
  is_logged_out (req_user req) = true ->
  (forall body : option Workout,
     run_state (HandleCreateWorkout req body) s = s /\
     calls_of (run_trace (HandleCreateWorkout req body) s) = [] /\
     map status_of (writes_of (run_trace (HandleCreateWorkout req body) s)) = [400]) /\
  (forall w : Workout,
     run_trace (HandleCreateWorkout req (Some w)) s =
       [EWrite (WriteJson StatusBadRequest (EnvError "you must be logged in"))]) /\
  run_state (HandleDeleteWorkoutByID req) s = s /\
  calls_of (run_trace (HandleDeleteWorkoutByID req) s) = [] /\
  Forall allowed_error_status (writes_of (run_trace (HandleDeleteWorkoutByID req) s)) /\
  (forall wid, ParseInt (url_id req) = Some wid ->
     run_trace (HandleDeleteWorkoutByID req) s =
       [EWrite (WriteJson StatusBadRequest (EnvError "you must be logged in to update"))]) /\
  (forall body : option UpdateWorkoutRequest,
     run_state (HandleUpdateWorkoutByID req body) s = s /\
     Forall (fun c => is_mutation c = false)
       (calls_of (run_trace (HandleUpdateWorkoutByID req body) s)) /\
     Forall allowed_error_status (writes_of (run_trace (HandleUpdateWorkoutByID req body) s))) /\
  (forall wid w upd, ReadIDParam req = (wid, None) -> GetWorkoutByID s wid = Ok (Some w) ->
     run_trace (HandleUpdateWorkoutByID req (Some upd)) s =
       [ECall (CGetWorkoutByID wid);
        EWrite (WriteJson StatusBadRequest (EnvError "you must be logged in to update"))]).
Proof.
  intros Hl.
  pose proof (logged_out_delete s req Hl) as Hdel.
  split; [|split; [|split; [|split; [|split; [|split; [|split]]]]]].
  - intros body. unfold run_state, run_trace.
    rewrite (logged_out_create s req body Hl). repeat split.
  - intros w. unfold run_trace. rewrite (logged_out_create s req (Some w) Hl). reflexivity.
  - unfold run_state. rewrite Hdel. reflexivity.
  - unfold run_trace. rewrite Hdel. reflexivity.
  - unfold run_trace. rewrite Hdel.
    destruct (String.eqb (url_id req) ""); [|destruct (ParseInt (url_id req))];
      all_allowed.
  - intros wid Hp. unfold run_trace. rewrite Hdel, Hp.
    destruct (String.eqb (url_id req) "") eqn:E; [|reflexivity].
    apply String.eqb_eq in E. rewrite E in Hp. discriminate.
  - intros body. destruct (logged_out_update s req body Hl) as (Hs & Hc & Hw).
    split; [exact Hs|split; [|exact Hw]]. rewrite Hc.
    apply List.Forall_cons; [reflexivity|apply List.Forall_nil].
  - intros wid w upd Hread Hget. unfold run_trace.
    rewrite (logged_out_update_reaching_check s req wid w upd Hl Hread Hget). reflexivity.
Qed.

Lemma C2_logged_out_rejected_400_witness :
  run_trace (HandleCreateWorkout {| url_id := "7"; req_user := AnonymousUser |} (Some (w_sample 5)))
    (store_with 5) =
  [EWrite (WriteJson StatusBadRequest (EnvError "you must be logged in"))].
Proof.
  exact (proj1 (proj2 (C2_logged_out_rejected_400 (store_with 5)
                         {| url_id := "7"; req_user := AnonymousUser |} eq_refl)) (w_sample 5)).
Defined.

(** ** Not found versus storage failure *)

(** What [HandleUpdateWorkoutByID] writes before its first store call: the
    400 of a malformed id, after which it does not return. *)
Definition update_id_prefix (req : Request) : list Event :=
  match snd (ReadIDParam req) with
  | Some _ => [EWrite (WriteJson StatusBadRequest (EnvError "Invalid workout update id"))]
  | None => []
  end.

(** C5: the store answers nil, without error, for an absent workout; and
    the update handler tells the two outcomes of [GetWorkoutByID] apart: a
    store error ends the request with 500 and a nil result with 404
    ([http.NotFound]), with no further store call in either case. *)
Theorem C5_nil_vs_storage_error :
  (forall (st : MemStore) (id : Z),
     down st = false -> rows st !! id = None -> GetWorkoutByID st id = Ok None) /\
  (forall (S : Type) (WS : WorkoutStore S) (s : S) (req : Request)
          (body : option UpdateWorkoutRequest),
     (forall e : DbError, GetWorkoutByID s (fst (ReadIDParam req)) = Err e ->
        HandleUpdateWorkoutByID req body s =
          (tt, s, update_id_prefix req ++
                  [ECall (CGetWorkoutByID (fst (ReadIDParam req)));
                   EWrite (WriteJson StatusInternalServerError
                             (EnvError "Internal server error"))])) /\
     (GetWorkoutByID s (fst (ReadIDParam req)) = Ok None ->
        HandleUpdateWorkoutByID req body s =
          (tt, s, update_id_prefix req ++
                  [ECall (CGetWorkoutByID (fst (ReadIDParam req))); EWrite NotFound]))).
Proof.
  split.
  - intros st id Hup Habs. simpl. rewrite Hup, Habs. reflexivity.
  - intros S WS s req body. unfold update_id_prefix.
    split; [intros e|]; intros Hget; unfold_handler;
      destruct (ReadIDParam req) as [wid [m|]]; simpl in *; rewrite Hget; reflexivity.
Qed.

Lemma C5_nil_vs_storage_error_witness :
  GetWorkoutByID empty_store 3 = Ok None /\
  HandleUpdateWorkoutByID req_abc None
    {| rows := ∅; next_id := 1; down := true |} =
    (tt, {| rows := ∅; next_id := 1; down := true |},
     [EWrite (WriteJson StatusBadRequest (EnvError "Invalid workout update id"));
      ECall (CGetWorkoutByID 0);
      EWrite (WriteJson StatusInternalServerError (EnvError "Internal server error"))]).
Proof.
  destruct C5_nil_vs_storage_error as [Hmem Hhandler]. split.
  - apply Hmem; reflexivity.
  - exact (proj1 (Hhandler MemStore _ {| rows := ∅; next_id := 1; down := true |}
                    req_abc None) conn_error eq_refl).
Defined.

(** C8: a token issued for user [u] and validated right away, with the
    returned plaintext and the issuing scope, yields the user stored under
    [u] (for a nonnegative lifetime and a user that exists). *)
Theorem C8_issue_validate_roundtrip (hash : string -> string)
    (tokens : gmap string Tokens.TokenRecord) (users : gmap Z User)
    (secret scope : string) (u ttl now : Z) (usr : User) :
  0 <= ttl ->
  users !! u = Some usr ->
  let '(plain, _, tokens') := Tokens.IssueToken hash tokens secret u ttl now scope in
  Tokens.ValidateToken hash tokens' users now plain scope = Tokens.TokValid usr.
Proof.
  intros Httl Hu. unfold Tokens.IssueToken, Tokens.ValidateToken.
  rewrite lookup_insert_eq. simpl.
  destruct (now >? now + ttl) eqn:E; [apply Z.gtb_lt in E; lia|].
  rewrite String.eqb_refl. simpl. rewrite Hu. reflexivity.
Qed.

Lemma C8_issue_validate_roundtrip_witness :
  Tokens.ValidateToken (fun x => x)
    (<["s3cret" := {| Tokens.Hash := "s3cret"; Tokens.tok_UserID := 42;
                      Tokens.Expiry := 100 + 86400; Tokens.Scope := "api" |}]> ∅)
    (<[42 := mkUser 42]> ∅) 100 "s3cret" "api" = Tokens.TokValid (mkUser 42).
Proof.
  exact (C8_issue_validate_roundtrip (fun x => x) ∅ (<[42 := mkUser 42]> ∅)
           "s3cret" "api" 42 86400 100 (mkUser 42) ltac:(lia) eq_refl).
Defined.

(** ** Further properties: [strconv.ParseInt] as used by [ReadIDParam] *)

Definition split_sign (s : string) : bool * string :=
  match s with
  | String "+"%char r => (false, r)
  | String "-"%char r => (true, r)
  | _ => (false, s)
  end.

Fixpoint all_digits (s : string) : bool :=
  match s with
  | EmptyString => true
  | String c r => match digit_value c with Some _ => all_digits r | None => false end
  end.

Definition starts_with_digit (s : string) : Prop :=
  exists c r, s = String c r /\ digit_value c <> None.

Lemma ParseInt_eq (s : string) :
  ParseInt s =
    if String.eqb s "" then None
    else let '(neg, rest) := split_sign s in
         match ParseUint rest with
         | None => None
         | Some un =>
             if negb neg && (2 ^ 63 <=? un) then None
             else if neg && (2 ^ 63 <? un) then None
             else Some (if neg then - un else un)
         end.
Proof. destruct s; reflexivity. Qed.

Lemma split_sign_cases (s : string) (neg : bool) (rest : string) :
  split_sign s = (neg, rest) ->
  (neg = false /\ s = rest) \/ (neg = false /\ s = String "+" rest) \/
  (neg = true /\ s = String "-" rest).
Proof.
  destruct s as [|c r]; intros Hs.
  - simpl in Hs. inversion Hs; auto.
  - destruct c as [[] [] [] [] [] [] [] []]; simpl in Hs; inversion Hs; subst; auto.
Qed.

Lemma split_sign_digit (c : ascii) (r : string) :
  digit_value c <> None -> split_sign (String c r) = (false, String c r).
Proof.
  destruct c as [[] [] [] [] [] [] [] []]; simpl; intros Hd;
    try reflexivity; exfalso; apply Hd; reflexivity.
Qed.

Lemma digit_value_range (c : ascii) (d : Z) : digit_value c = Some d -> 0 <= d < 10.
Proof.
  unfold digit_value.
  destruct ((48 <=? Z.of_nat (nat_of_ascii c)) && (Z.of_nat (nat_of_ascii c) <=? 57)) eqn:E;
    [|discriminate].
  apply andb_true_iff in E as [E1 E2]. apply Z.leb_le in E1, E2.
  intros Hd; inversion Hd; lia.
Qed.

Lemma digits_acc_nonneg (s : string) (a n : Z) :
  0 <= a -> digits_acc s a = Some n -> 0 <= n.
Proof.
  revert a. induction s as [|c r IH]; simpl; intros a Ha Hs.
  - inversion Hs; lia.
  - destruct (digit_value c) as [d|] eqn:Hd; [|discriminate].
    apply digit_value_range in Hd. eapply IH; [|exact Hs]. lia.
Qed.

Lemma digits_acc_all_digits (s : string) (a n : Z) :
  digits_acc s a = Some n -> all_digits s = true.
Proof.
  revert a. induction s as [|c r IH]; simpl; intros a Hs; [reflexivity|].
  destruct (digit_value c); [exact (IH _ Hs)|discriminate].
Qed.

Lemma ParseUint_nonneg (s : string) (n : Z) : ParseUint s = Some n -> 0 <= n.
Proof.
  unfold ParseUint. destruct s as [|c r]; [discriminate|].
  destruct (digits_acc (String c r) 0) as [m|] eqn:E; [|discriminate].
  destruct (m <=? 2 ^ 64 - 1); [|discriminate].
  intros H'; inversion H'; subst. exact (digits_acc_nonneg _ 0 _ ltac:(lia) E).
Qed.

Lemma digit_value_digit_char (d : Z) : 0 <= d < 10 -> digit_value (digit_char d) = Some d.
Proof.
  intros Hd. unfold digit_value, digit_char.
  rewrite nat_ascii_embedding by lia.
  rewrite Nat2Z.inj_add, Z2Nat.id by lia.
  replace ((48 <=? d + Z.of_nat 48) && (d + Z.of_nat 48 <=? 57)) with true.
  - f_equal. lia.
  - symmetry. apply andb_true_iff. split; apply Z.leb_le; simpl; lia.
Qed.

Lemma digits_of_spec (fuel : nat) :
  forall (n : Z) (s : string) (a : Z),
    0 <= n < 10 ^ Z.of_nat fuel ->
    exists k : nat, digits_acc (digits_of fuel n s) a = digits_acc s (a * 10 ^ Z.of_nat k + n).
Proof.
  induction fuel as [|f IH]; intros n s a Hn.
  - exists O. simpl in *. replace n with 0 by lia. f_equal. lia.
  - simpl digits_of.
    assert (Hm : 0 <= n mod 10 < 10) by (apply Z.mod_pos_bound; lia).
    assert (Hdm : n = 10 * (n / 10) + n mod 10) by (apply Z.div_mod; lia).
    destruct (n <? 10) eqn:Hlt.
    + exists 1%nat. simpl. rewrite digit_value_digit_char by exact Hm.
      apply Z.ltb_lt in Hlt. rewrite Z.mod_small by lia. f_equal; lia.
    + apply Z.ltb_ge in Hlt.
      assert (Hq : 0 <= n / 10 < 10 ^ Z.of_nat f).
      { split; [apply Z.div_pos; lia|].
        apply Z.div_lt_upper_bound; [lia|].
        rewrite Nat2Z.inj_succ, Z.pow_succ_r in Hn by lia. lia. }
      destruct (IH (n / 10) (String (digit_char (n mod 10)) s) a Hq) as [k Hk].
      exists (S k). rewrite Hk. simpl. rewrite digit_value_digit_char by exact Hm.
      f_equal. rewrite Nat2Z.inj_succ, Z.pow_succ_r by lia. nia.
Qed.

Lemma digits_of_head (fuel : nat) :
  forall (n : Z) (s : string),
    ((fuel >= 1)%nat \/ starts_with_digit s) -> 0 <= n ->
    starts_with_digit (digits_of fuel n s).
Proof.
  induction fuel as [|f IH]; intros n s Hs Hn.
  - destruct Hs as [Hs|Hs]; [lia|exact Hs].
  - assert (Hm : 0 <= n mod 10 < 10) by (apply Z.mod_pos_bound; lia).
    assert (Hacc : starts_with_digit (String (digit_char (n mod 10)) s)).
    { do 2 eexists. split; [reflexivity|]. rewrite digit_value_digit_char by exact Hm.
      discriminate. }
    simpl. destruct (n <? 10); [exact Hacc|].
    apply IH; [right; exact Hacc|]. apply Z.div_pos; lia.
Qed.

Lemma ParseUint_decimal (n : Z) :
  0 <= n <= 2 ^ 64 - 1 -> ParseUint (decimal_of_nonneg n) = Some n.
Proof.
  intros Hn.
  assert (Hb : 2 ^ 64 - 1 < 10 ^ Z.of_nat 20) by reflexivity.
  destruct (digits_of_spec 20 n "" 0 ltac:(lia)) as [k Hk].
  destruct (digits_of_head 20 n "" ltac:(left; lia) ltac:(lia)) as (c & r & Hcr & _).
  unfold ParseUint, decimal_of_nonneg in *. rewrite Hcr in *. rewrite Hk. simpl.
  replace (0 * 10 ^ Z.of_nat k + n) with n by lia.
  replace (n <=? 2 ^ 64 - 1) with true by (symmetry; apply Z.leb_le; lia).
  reflexivity.
Qed.

Lemma ParseUint_decimal_any (n : Z) :
  0 <= n < 10 ^ 20 ->
  ParseUint (decimal_of_nonneg n) = if n <=? 2 ^ 64 - 1 then Some n else None.
Proof.
  intros Hn.
  destruct (digits_of_spec 20 n "" 0 ltac:(simpl; lia)) as [k Hk].
  destruct (digits_of_head 20 n "" ltac:(left; lia) ltac:(lia)) as (c & r & Hcr & _).
  unfold ParseUint, decimal_of_nonneg in *. rewrite Hcr in *. rewrite Hk. simpl.
  replace (0 * 10 ^ Z.of_nat k + n) with n by lia. reflexivity.
Qed.

Lemma decimal_of_nonneg_head (n : Z) : 0 <= n -> starts_with_digit (decimal_of_nonneg n).
Proof. intros Hn. apply digits_of_head; [left; lia|exact Hn]. Qed.

Definition id_request (s : string) (who : Identity) : Request :=
  {| url_id := s; req_user := who |}.

(** X1: [ReadIDParam] succeeds only on an optional sign followed by at
    least one ASCII decimal digit and nothing else, and the id it returns
    is a signed 64-bit value. *)
Theorem X_ReadIDParam_accepts_signed_decimal (req : Request) (id : Z) :
  ReadIDParam req = (id, None) ->
  - 2 ^ 63 <= id <= 2 ^ 63 - 1 /\
  exists rest : string,
    (url_id req = rest \/ url_id req = String "+" rest \/ url_id req = String "-" rest) /\
    rest <> "" /\ all_digits rest = true.
Proof.
  intros Hr. destruct (ReadIDParam_ok req id Hr) as [Hne Hp].
  rewrite ParseInt_eq, Hne in Hp.
  destruct (split_sign (url_id req)) as [neg rest] eqn:Hs.
  destruct (ParseUint rest) as [un|] eqn:Hu; [|discriminate].
  pose proof (ParseUint_nonneg _ _ Hu) as Hun.
  assert (Hrest : rest <> "" /\ all_digits rest = true).
  { unfold ParseUint in Hu. destruct rest as [|c r]; [discriminate|].
    split; [discriminate|].
    destruct (digits_acc (String c r) 0) eqn:E; [|discriminate].
    exact (digits_acc_all_digits _ _ _ E). }
  split.
  - destruct neg; simpl in Hp.
    + destruct (2 ^ 63 <? un) eqn:E; [discriminate|]. apply Z.ltb_ge in E.
      inversion Hp; lia.
    + destruct (2 ^ 63 <=? un) eqn:E; [discriminate|]. apply Z.leb_gt in E.
      inversion Hp; lia.
  - exists rest. split; [|exact Hrest].
    destruct (split_sign_cases _ _ _ Hs) as [[_ E]|[[_ E]|[_ E]]]; auto.
Qed.

Lemma X_ReadIDParam_accepts_signed_decimal_witness :
  - 2 ^ 63 <= -12 <= 2 ^ 63 - 1.
Proof.
  exact (proj1 (X_ReadIDParam_accepts_signed_decimal (id_request "-12" NilUser) (-12)
                  ltac:(reflexivity))).
Defined.

(** X2: the decimal notation of every signed 64-bit integer, negative ones
    and zero included, is read back by [ReadIDParam] as that integer; the
    decimal notation of an integer from 2^63 up to 20 digits is refused as
    "Invalid id parameter type". *)
Theorem X_ReadIDParam_decimal_roundtrip (n : Z) (who : Identity) :
  (- 2 ^ 63 <= n <= 2 ^ 63 - 1 ->
   ReadIDParam (id_request (decimal_of n) who) = (n, None)) /\
  (2 ^ 63 <= n < 10 ^ 20 ->
   ReadIDParam (id_request (decimal_of n) who) = (0, Some "Invalid id parameter type")).
Proof.
  assert (Hb : 2 ^ 64 - 1 < 10 ^ 20) by reflexivity.
  split; intros Hn; unfold ReadIDParam, id_request, decimal_of; simpl url_id.
  - destruct (n <? 0) eqn:Hneg.
    + apply Z.ltb_lt in Hneg. simpl.
      rewrite ParseUint_decimal by lia.
      replace (2 ^ 63 <? - n) with false by (symmetry; apply Z.ltb_ge; lia).
      f_equal. f_equal. lia.
    + apply Z.ltb_ge in Hneg.
      destruct (decimal_of_nonneg_head n Hneg) as (c & r & Hcr & Hd).
      rewrite Hcr. simpl String.eqb. rewrite ParseInt_eq. simpl String.eqb.
      rewrite split_sign_digit by exact Hd. rewrite <- Hcr.
      rewrite ParseUint_decimal by lia.
      replace (2 ^ 63 <=? n) with false by (symmetry; apply Z.leb_gt; lia).
      reflexivity.
  - replace (n <? 0) with false by (symmetry; apply Z.ltb_ge; lia).
    destruct (decimal_of_nonneg_head n ltac:(lia)) as (c & r & Hcr & Hd).
    rewrite Hcr. simpl String.eqb. rewrite ParseInt_eq. simpl String.eqb.
    rewrite split_sign_digit by exact Hd. rewrite <- Hcr.
    rewrite ParseUint_decimal_any by lia.
    destruct (n <=? 2 ^ 64 - 1) eqn:E; [|reflexivity].
    replace (2 ^ 63 <=? n) with true by (symmetry; apply Z.leb_le; lia).
    reflexivity.
Qed.

Lemma X_ReadIDParam_decimal_roundtrip_witness :
  ReadIDParam (id_request (decimal_of (- 2 ^ 63)) NilUser) = (- 2 ^ 63, None).
Proof.
  exact (proj1 (X_ReadIDParam_decimal_roundtrip (- 2 ^ 63) NilUser) ltac:(lia)).
Defined.

(** X3: a leading '+' and leading zeros do not change the id: "+7", "007"
    and "7" all name workout 7. *)
Theorem X_ReadIDParam_plus_and_leading_zeros (s : string) (who : Identity) :
  starts_with_digit s ->
  ReadIDParam (id_request (String "+" s) who) = ReadIDParam (id_request s who) /\
  ReadIDParam (id_request (String "0" s) who) = ReadIDParam (id_request s who).
Proof.
  intros (c & r & -> & Hd).
  unfold ReadIDParam, id_request; simpl url_id. simpl String.eqb.
  rewrite !ParseInt_eq. simpl String.eqb.
  rewrite (split_sign_digit c r Hd).
  split; [reflexivity|].
  rewrite (split_sign_digit "0" (String c r)) by discriminate.
  reflexivity.
Qed.

Lemma X_ReadIDParam_plus_and_leading_zeros_witness :
  ReadIDParam (id_request "+7" NilUser) = ReadIDParam (id_request "7" NilUser).
Proof.
  exact (proj1 (X_ReadIDParam_plus_and_leading_zeros "7" NilUser
                  ltac:(exists "7"%char, ""; split; [reflexivity|discriminate]))).
Defined.

(** ** Further properties of the handlers *)

(** Case on every branch condition left in a reduced handler run. *)
Ltac split_branches :=
  repeat (simpl; match goal with
                 | |- context [match ?x with _ => _ end] =>
                     lazymatch x with
                     | context [match _ with _ => _ end] => fail
                     | _ => destruct x eqn:?
                     end
                 end).

(** X4: [HandleWorkoutByID], [HandleCreateWorkout] and
    [HandleDeleteWorkoutByID] write exactly one response whatever the
    request, body and store answers; [HandleUpdateWorkoutByID] writes
    exactly one when the id parses and exactly two when it does not. *)
Theorem X_handlers_response_count {S : Type} `{WorkoutStore S} (s : S) (req : Request)
    (cbody : option Workout) (ubody : option UpdateWorkoutRequest) :
  length (writes_of (run_trace (HandleWorkoutByID req) s)) = 1%nat /\
  length (writes_of (run_trace (HandleCreateWorkout req cbody) s)) = 1%nat /\
  length (writes_of (run_trace (HandleDeleteWorkoutByID req) s)) = 1%nat /\
  length (writes_of (run_trace (HandleUpdateWorkoutByID req ubody) s)) =
    (if snd (ReadIDParam req) then 2 else 1)%nat.
Proof.
  split; [|split; [|split]]; unfold_handler;
    try destruct (ReadIDParam req) as [wid e]; simpl; split_branches; reflexivity.
Qed.

(** X5: [HandleWorkoutByID] is read-only: it leaves the store as it was and
    makes at most one store call, [GetWorkoutByID] on the parsed id. *)
Theorem X_get_handler_read_only {S : Type} `{WorkoutStore S} (s : S) (req : Request) :
  run_state (HandleWorkoutByID req) s = s /\
  calls_of (run_trace (HandleWorkoutByID req) s) =
    match snd (ReadIDParam req) with
    | Some _ => []
    | None => [CGetWorkoutByID (fst (ReadIDParam req))]
    end.
Proof.
  unfold_handler. destruct (ReadIDParam req) as [wid [e|]]; simpl; [split; reflexivity|].
  destruct (GetWorkoutByID s wid); split; reflexivity.
Qed.

(** X6: [HandleDeleteWorkoutByID] calls [DeleteWorkout] only for an
    authenticated caller whom the ownership probe, on the same parsed id,
    reports as the owner; the probe is then its only other store call. *)
Theorem X_delete_only_by_owner {S : Type} `{WorkoutStore S} (s : S) (req : Request) (id : Z) :
  In (CDeleteWorkout id) (calls_of (run_trace (HandleDeleteWorkoutByID req) s)) ->
  exists u : User,
    req_user req = AuthUser u /\ ParseInt (url_id req) = Some id /\
    GetWorkoutOwner s id = Ok (user_ID u) /\
    calls_of (run_trace (HandleDeleteWorkoutByID req) s) =
      [CGetWorkoutOwner id; CDeleteWorkout id].
Proof.
  unfold_handler. split_branches; try not_in_calls.
  all: intros Hin; simpl in Hin; destruct Hin as [Hin|[Hin|[]]]; [discriminate|];
    injection Hin as <-;
    match goal with
    | E : negb (?o =? user_ID ?u) = false |- _ =>
        apply negb_false_iff, Z.eqb_eq in E; subst o; exists u
    end;
    repeat split; assumption.
Qed.

Lemma X_delete_only_by_owner_witness :
  exists u : User,
    req_user req_7_user1 = AuthUser u /\ ParseInt (url_id req_7_user1) = Some 7 /\
    GetWorkoutOwner (store_with 1) 7 = Ok (user_ID u) /\
    calls_of (run_trace (HandleDeleteWorkoutByID req_7_user1) (store_with 1)) =
      [CGetWorkoutOwner 7; CDeleteWorkout 7].
Proof.
  apply (X_delete_only_by_owner (store_with 1) req_7_user1 7).
  vm_compute. right; left; reflexivity.
Defined.

(** X7: [HandleUpdateWorkoutByID] calls [UpdateWorkout] only when the
    workout was read from the store, the body decoded, the caller is
    authenticated and the ownership probe on the same id reports the
    caller; the workout written is the stored one with the body applied
    and the id of the URL, and the calls are exactly read, probe, update. *)
Theorem X_update_only_by_owner {S : Type} `{WorkoutStore S} (s : S) (req : Request)
    (body : option UpdateWorkoutRequest) (w' : Workout) :
  In (CUpdateWorkout w') (calls_of (run_trace (HandleUpdateWorkoutByID req body) s)) ->
  exists (u : User) (w : Workout) (upd : UpdateWorkoutRequest),
    let wid := fst (ReadIDParam req) in
    req_user req = AuthUser u /\ body = Some upd /\
    GetWorkoutByID s wid = Ok (Some w) /\
    GetWorkoutOwner s wid = Ok (user_ID u) /\
    w' = set_ID (apply_update w upd) wid /\
    calls_of (run_trace (HandleUpdateWorkoutByID req body) s) =
      [CGetWorkoutByID wid; CGetWorkoutOwner wid; CUpdateWorkout w'].
Proof.
  unfold_handler. destruct (ReadIDParam req) as [wid e]. simpl fst.
  split_branches; try not_in_calls.
  all: intros Hin; simpl in Hin; destruct Hin as [Hin|[Hin|[Hin|[]]]];
    try discriminate; injection Hin as <-;
    match goal with
    | E : negb (?o =? user_ID ?u) = false |- _ =>
        apply negb_false_iff, Z.eqb_eq in E; subst o; exists u
    end;
    do 2 eexists; repeat split; eassumption.
Qed.

Lemma X_update_only_by_owner_witness :
  exists (u : User) (w : Workout) (upd : UpdateWorkoutRequest),
    let wid := fst (ReadIDParam req_7_user1) in
    req_user req_7_user1 = AuthUser u /\ Some upd_title_empty_entries = Some upd /\
    GetWorkoutByID (store_with 1) wid = Ok (Some w) /\
    GetWorkoutOwner (store_with 1) wid = Ok (user_ID u) /\
    set_ID (apply_update (w_sample 1) upd_title_empty_entries) 7 =
      set_ID (apply_update w upd) wid /\
    calls_of (run_trace (HandleUpdateWorkoutByID req_7_user1 (Some upd_title_empty_entries))
                (store_with 1)) =
      [CGetWorkoutByID wid; CGetWorkoutOwner wid;
       CUpdateWorkout (set_ID (apply_update (w_sample 1) upd_title_empty_entries) 7)].
Proof.
  apply (X_update_only_by_owner (store_with 1) req_7_user1 (Some upd_title_empty_entries)).
  vm_compute. right; right; left; reflexivity.
Defined.

(** X8: [HandleCreateWorkout] for an authenticated caller and a decoded
    body answers 201 with the workout the store returned, or 500 "failed to
    create workout" when the store fails; the store ends in the state
    [CreateWorkout] left it in. Without a decoded body or an authenticated
    caller, [CreateWorkout] is never called. *)
Theorem X_create_outcome {S : Type} `{WorkoutStore S} (s : S) (req : Request)
    (body : option Workout) :
  (forall (u : User) (w : Workout),
     req_user req = AuthUser u -> body = Some w ->
     let '(r, s') := CreateWorkout s (set_UserID w (user_ID u)) in
     run_state (HandleCreateWorkout req body) s = s' /\
     writes_of (run_trace (HandleCreateWorkout req body) s) =
       [match r with
        | Ok cw => WriteJson StatusCreated (EnvWorkout (Some cw))
        | Err _ => WriteJson StatusInternalServerError (EnvError "failed to create workout")
        end]) /\
  ((body = None \/ is_logged_out (req_user req) = true) ->
   calls_of (run_trace (HandleCreateWorkout req body) s) = [] /\
   run_state (HandleCreateWorkout req body) s = s).
Proof.
  split.
  - intros u w Hu Hb. subst body. unfold_handler. rewrite Hu. simpl.
    destruct (CreateWorkout s (set_UserID w (user_ID u))) as [[cw|e] s']; split; reflexivity.
  - intros Hc. unfold_handler. destruct body as [w|]; [|split; reflexivity].
    destruct Hc as [Hc|Hc]; [discriminate|].
    destruct (req_user req); [split; reflexivity|split; reflexivity|discriminate].
Qed.

Lemma X_create_outcome_witness :
  run_state (HandleCreateWorkout req_7_user1 (Some (w_sample 3))) empty_store =
    snd (CreateWorkout empty_store (set_UserID (w_sample 3) 1)).
Proof.
  pose proof (proj1 (X_create_outcome empty_store req_7_user1 (Some (w_sample 3)))
                (mkUser 1) (w_sample 3) eq_refl eq_refl) as Hx.
  vm_compute in Hx. vm_compute. exact (proj1 Hx).
Defined.

(** X9: when the caller owns the workout, [HandleDeleteWorkoutByID] maps
    the result of [DeleteWorkout] to its one response: success 204 with no
    body, [sql.ErrNoRows] 404 "Workout not found", any other error 500
    "error deleting the workout"; the store ends as [DeleteWorkout] left
    it. *)
Theorem X_delete_outcome {S : Type} `{WorkoutStore S} (s : S) (req : Request)
    (id : Z) (u : User) :
  ParseInt (url_id req) = Some id ->
  req_user req = AuthUser u ->
  GetWorkoutOwner s id = Ok (user_ID u) ->
  let '(r, s') := DeleteWorkout s id in
  HandleDeleteWorkoutByID req s =
    (tt, s', [ECall (CGetWorkoutOwner id); ECall (CDeleteWorkout id);
              EWrite (match r with
                      | Ok _ => WriteHeader StatusNoContent
                      | Err ErrNoRows => HttpError "Workout not found" StatusNotFound
                      | Err _ => HttpError "error deleting the workout" StatusInternalServerError
                      end)]).
Proof.
  intros Hp Hu Ho. unfold_handler.
  destruct (String.eqb (url_id req) "") eqn:E.
  - apply String.eqb_eq in E. rewrite E in Hp. discriminate.
  - rewrite Hp, Hu. simpl. rewrite Ho. simpl. rewrite Z.eqb_refl. simpl.
    destruct (DeleteWorkout s id) as [[x|[|m]] s']; reflexivity.
Qed.

Lemma X_delete_outcome_witness :
  HandleDeleteWorkoutByID req_7_user1 (store_with 1) =
    (tt, snd (DeleteWorkout (store_with 1) 7),
     [ECall (CGetWorkoutOwner 7); ECall (CDeleteWorkout 7); EWrite (WriteHeader 204)]).
Proof.
  exact (X_delete_outcome (store_with 1) req_7_user1 7 (mkUser 1) eq_refl eq_refl eq_refl).
Defined.

(** X10: when the id parses, the workout exists, the body decodes and the
    caller owns the workout, [HandleUpdateWorkoutByID] calls [UpdateWorkout]
    once and answers 200 with the very workout it passed to the store (not
    a fresh read), or 500 when the store fails; the store ends as
    [UpdateWorkout] left it. *)
Theorem X_update_outcome {S : Type} `{WorkoutStore S} (s : S) (req : Request)
    (wid : Z) (u : User) (w : Workout) (upd : UpdateWorkoutRequest) :
  ReadIDParam req = (wid, None) ->
  req_user req = AuthUser u ->
  GetWorkoutByID s wid = Ok (Some w) ->
  GetWorkoutOwner s wid = Ok (user_ID u) ->
  let w' := set_ID (apply_update w upd) wid in
  let '(r, s') := UpdateWorkout s w' in
  HandleUpdateWorkoutByID req (Some upd) s =
    (tt, s', [ECall (CGetWorkoutByID wid); ECall (CGetWorkoutOwner wid);
              ECall (CUpdateWorkout w');
              EWrite (match r with
                      | Ok _ => WriteJson StatusOK (EnvWorkout (Some w'))
                      | Err _ => WriteJson StatusInternalServerError
                                   (EnvError "Internal server error")
                      end)]).
Proof.
  intros Hr Hu Hg Ho. unfold_handler. rewrite Hr. simpl. rewrite Hg. simpl.
  rewrite Hu. simpl. rewrite Ho. simpl. rewrite Z.eqb_refl. simpl.
  destruct (UpdateWorkout s (set_ID (apply_update w upd) wid)) as [[x|e] s']; reflexivity.
Qed.

Lemma X_update_outcome_witness :
  run_state (HandleUpdateWorkoutByID req_7_user1 (Some upd_title_empty_entries)) (store_with 1) =
    snd (UpdateWorkout (store_with 1) (set_ID (apply_update (w_sample 1) upd_title_empty_entries) 7)).
Proof.
  pose proof (X_update_outcome (store_with 1) req_7_user1 7 (mkUser 1) (w_sample 1)
                upd_title_empty_entries eq_refl eq_refl eq_refl eq_refl) as Hx.
  vm_compute in Hx.
  exact (f_equal (fun p : unit * MemStore * list Event => snd (fst p)) Hx).
Defined.



Ltac unfold_legacy :=
  unfold Legacy.HandleCreateWorkout, Legacy.HandleUpdateWorkoutByID,
    Legacy.HandleDeleteWorkoutByID.

Lemma ReadIDParam_of_parsed (req : Request) (id : Z) :
  ParseInt (url_id req) = Some id -> ReadIDParam req = (id, None).
Proof.
  intros Hp. unfold ReadIDParam.
  destruct (String.eqb (url_id req) "") eqn:E.
  - apply String.eqb_eq in E. rewrite E in Hp. discriminate.
  - rewrite Hp. reflexivity.
Qed.

(** X12: the earlier [HandleCreateWorkout] of database.go hands the decoded
    workout to [CreateWorkout] unchanged, whoever the caller is (anonymous
    included), so the owner is whatever the body says; the current handler,
    for an authenticated caller, behaves exactly as the earlier one run on
    the body with its owner replaced by the caller. *)
Theorem X_legacy_create_owner_from_body {S : Type} `{WorkoutStore S} (s : S)
    (req : Request) (w : Workout) :
  calls_of (run_trace (Legacy.HandleCreateWorkout req (Some w)) s) = [CCreateWorkout w] /\
  (forall u : User, req_user req = AuthUser u ->
     HandleCreateWorkout req (Some w) s =
       Legacy.HandleCreateWorkout req (Some (set_UserID w (user_ID u))) s).
Proof.
  split.
  - unfold_legacy; unfold_handler. simpl.
    destruct (CreateWorkout s w) as [[c|e] s']; reflexivity.
  - intros u Hu. unfold_legacy; unfold_handler. rewrite Hu. reflexivity.
Qed.

Lemma X_legacy_create_owner_from_body_witness :
  HandleCreateWorkout req_7_user1 (Some (w_sample 9)) empty_store =
    Legacy.HandleCreateWorkout req_7_user1 (Some (set_UserID (w_sample 9) 1)) empty_store.
Proof.
  exact (proj2 (X_legacy_create_owner_from_body empty_store req_7_user1 (w_sample 9))
           (mkUser 1) eq_refl).
Defined.

(** X13: the earlier update and delete handlers of database.go make no
    identity or ownership check: for any caller, anonymous included, a
    parsed id leads delete straight to [DeleteWorkout], and an existing
    workout with a decoded body leads update straight to [UpdateWorkout],
    with no ownership probe. *)
Theorem X_legacy_mutations_unchecked {S : Type} `{WorkoutStore S} (s : S) (req : Request) :
  (forall id : Z, ParseInt (url_id req) = Some id ->
     calls_of (run_trace (Legacy.HandleDeleteWorkoutByID req) s) = [CDeleteWorkout id]) /\
  (forall (wid : Z) (w : Workout) (upd : UpdateWorkoutRequest),
     ReadIDParam req = (wid, None) -> GetWorkoutByID s wid = Ok (Some w) ->
     calls_of (run_trace (Legacy.HandleUpdateWorkoutByID req (Some upd)) s) =
       [CGetWorkoutByID wid; CUpdateWorkout (set_ID (apply_update w upd) wid)]).
Proof.
  split.
  - intros id Hp. unfold_legacy; unfold_handler.
    destruct (String.eqb (url_id req) "") eqn:E.
    + apply String.eqb_eq in E. rewrite E in Hp. discriminate.
    + rewrite Hp. simpl. destruct (DeleteWorkout s id) as [[x|[|m]] s']; reflexivity.
  - intros wid w upd Hr Hg. unfold_legacy; unfold_handler. rewrite Hr. simpl. rewrite Hg.
    simpl. destruct (UpdateWorkout s (set_ID (apply_update w upd) wid)) as [[x|e] s'];
      reflexivity.
Qed.

Lemma X_legacy_mutations_unchecked_witness :
  calls_of (run_trace (Legacy.HandleDeleteWorkoutByID (id_request "7" AnonymousUser))
              (store_with 1)) = [CDeleteWorkout 7].
Proof.
  exact (proj1 (X_legacy_mutations_unchecked (store_with 1) (id_request "7" AnonymousUser))
           7 eq_refl).
Defined.

(** X14: for a caller whom the ownership probe reports as the owner of the
    requested id, the current update and delete handlers write the same
    responses and leave the store in the same state as the earlier
    handlers of database.go: the added checks only add rejections. *)
Theorem X_owner_requests_match_legacy {S : Type} `{WorkoutStore S} (s : S) (req : Request)
    (u : User) (body : option UpdateWorkoutRequest) :
  req_user req = AuthUser u ->
  GetWorkoutOwner s (fst (ReadIDParam req)) = Ok (user_ID u) ->
  run_state (HandleUpdateWorkoutByID req body) s =
    run_state (Legacy.HandleUpdateWorkoutByID req body) s /\
  writes_of (run_trace (HandleUpdateWorkoutByID req body) s) =
    writes_of (run_trace (Legacy.HandleUpdateWorkoutByID req body) s) /\
  run_state (HandleDeleteWorkoutByID req) s =
    run_state (Legacy.HandleDeleteWorkoutByID req) s /\
  writes_of (run_trace (HandleDeleteWorkoutByID req) s) =
    writes_of (run_trace (Legacy.HandleDeleteWorkoutByID req) s).
Proof.
  intros Hu Ho.
  split; [|split; [|split]].
  1, 2:
    unfold_legacy; unfold_handler; destruct (ReadIDParam req) as [wid e]; simpl in Ho;
    rewrite Hu; simpl; split_branches; try reflexivity; try congruence;
    injection Ho as ->; rewrite Z.eqb_refl in *; discriminate.
  all:
    unfold_legacy; unfold_handler;
    destruct (String.eqb (url_id req) "") eqn:E; [reflexivity|];
    destruct (ParseInt (url_id req)) as [id|] eqn:Hp; [|reflexivity];
    rewrite (ReadIDParam_of_parsed req id Hp) in Ho; simpl in Ho;
    rewrite Hu; simpl; rewrite Ho; simpl; rewrite Z.eqb_refl; simpl;
    destruct (DeleteWorkout s id) as [[x|[|m]] s']; reflexivity.
Qed.

Lemma X_owner_requests_match_legacy_witness :
  writes_of (run_trace (HandleDeleteWorkoutByID req_7_user1) (store_with 1)) =
    writes_of (run_trace (Legacy.HandleDeleteWorkoutByID req_7_user1) (store_with 1)).
Proof.
  exact (proj2 (proj2 (proj2 (X_owner_requests_match_legacy (store_with 1) req_7_user1
                                 (mkUser 1) None eq_refl eq_refl)))).
Defined.

(** X15: because the malformed-id branch of [HandleUpdateWorkoutByID] does
    not return, a malformed id acts as id 0: when the caller owns workout 0
    and the body decodes, workout 0 is passed to [UpdateWorkout] and the
    client gets the 400 followed by the 200 of a successful update. *)
Theorem X_update_bad_id_updates_workout_zero {S : Type} `{WorkoutStore S} (s s' : S)
    (req : Request) (u : User) (w : Workout) (upd : UpdateWorkoutRequest) :
  url_id req = "" \/ ParseInt (url_id req) = None ->
  req_user req = AuthUser u ->
  GetWorkoutByID s 0 = Ok (Some w) ->
  GetWorkoutOwner s 0 = Ok (user_ID u) ->
  UpdateWorkout s (set_ID (apply_update w upd) 0) = (Ok tt, s') ->
  HandleUpdateWorkoutByID req (Some upd) s =
    (tt, s', [EWrite (WriteJson StatusBadRequest (EnvError "Invalid workout update id"));
              ECall (CGetWorkoutByID 0); ECall (CGetWorkoutOwner 0);
              ECall (CUpdateWorkout (set_ID (apply_update w upd) 0));
              EWrite (WriteJson StatusOK (EnvWorkout (Some (set_ID (apply_update w upd) 0))))]).
Proof.
  intros Hbad Hu Hg Ho Hup.
  destruct (ReadIDParam_err req Hbad) as [msg Hr].
  unfold_handler. rewrite Hr. simpl. rewrite Hg. simpl. rewrite Hu. simpl.
  rewrite Ho. simpl. rewrite Z.eqb_refl. simpl. rewrite Hup. reflexivity.
Qed.

Definition store_with_zero : MemStore :=
  {| rows := <[0 := set_ID (w_sample 1) 0]> ∅; next_id := 1; down := false |}.

Lemma X_update_bad_id_updates_workout_zero_witness :
  writes_of (run_trace (HandleUpdateWorkoutByID req_abc (Some upd_title_empty_entries))
               store_with_zero) =
    [WriteJson StatusBadRequest (EnvError "Invalid workout update id");
     WriteJson StatusOK
       (EnvWorkout (Some (set_ID (apply_update (set_ID (w_sample 1) 0) upd_title_empty_entries) 0)))].
Proof.
  unfold run_trace.
  rewrite (@X_update_bad_id_updates_workout_zero MemStore MemStore_WorkoutStore store_with_zero
             (snd (UpdateWorkout store_with_zero
                     (set_ID (apply_update (set_ID (w_sample 1) 0) upd_title_empty_entries) 0)))
             req_abc (mkUser 1) (set_ID (w_sample 1) 0) upd_title_empty_entries
             (or_intror eq_refl) eq_refl ltac:(vm_compute; reflexivity)
             ltac:(vm_compute; reflexivity) ltac:(vm_compute; reflexivity)).
  reflexivity.
Defined.
